(** * Adafruit_Python_TMP: the TMP006 driver, embedded and verified

    A shallow embedding of [Adafruit_TMP/TMP006.py].  The driver talks to the
    sensor through an I2C device object of the [Adafruit_GPIO] package; that
    package is a dependency, so its five calls ([write16], [readU16],
    [readU16BE], [readS16], [readS16BE]) are modelled here together with the
    byte order of the wire.  Integers are [Z] as in Python, the register file
    of the sensor is a finite map from register address to 16-bit word, and
    floating-point values are binary64 primitive floats. *)

From Stdlib Require Import ZArith Lia List Bool Floats Uint63.
From stdpp Require Import gmap.
Import ListNotations.

Set Warnings "-inexact-float".
Local Open Scope Z_scope.

(** ** Module constants of TMP006.py *)

Definition TMP006_B0 : float := (-0.0000294)%float.
Definition TMP006_B1 : float := (-0.00000057)%float.
Definition TMP006_B2 : float := 0.00000000463%float.
Definition TMP006_C2 : float := 13.4%float.
Definition TMP006_TREF : float := 298.15%float.
Definition TMP006_A2 : float := (-0.00001678)%float.
Definition TMP006_A1 : float := 0.00175%float.
Definition TMP006_S0 : float := 6.4%float.

Definition TMP006_I2CADDR : Z := 0x40.

Definition TMP006_CONFIG : Z := 0x02.
Definition TMP006_MANID : Z := 0xFE.
Definition TMP006_DEVID : Z := 0xFF.
Definition TMP006_VOBJ : Z := 0x0.
Definition TMP006_TAMB : Z := 0x01.

Definition TMP006_CFG_RESET : Z := 0x8000.
Definition TMP006_CFG_MODEON : Z := 0x7000.
Definition CFG_1SAMPLE : Z := 0x0000.
Definition CFG_2SAMPLE : Z := 0x0200.
Definition CFG_4SAMPLE : Z := 0x0400.
Definition CFG_8SAMPLE : Z := 0x0600.
Definition CFG_16SAMPLE : Z := 0x0800.
Definition TMP006_CFG_DRDYEN : Z := 0x0100.
Definition TMP006_CFG_DRDY : Z := 0x0080.

(** ** The I2C device behind [self._device] *)

Module I2C.

(** One call of the driver into the transport, with the arguments the
    driver handed over. *)
Inductive BusOp : Type :=
| Write16 (register value : Z)
| Read16 (register : Z).

(** The sensor's register file and the calls made so far, oldest first. *)
Record Device : Type := mkDevice {
  registers : gmap Z Z;
  calls : list BusOp
}.

(** The 16-bit word the sensor holds in a register. *)
Definition reg16 (d : Device) (register : Z) : Z :=
  Z.land (default 0 (registers d !! register)) 0xFFFF.

(** Modelled from the spec: the sensor's side of a word transfer, which is
    not part of the repository.  The register convention is big-endian:
    the first data byte on the wire is the high byte of the register. *)
Definition chip_store (register b0 b1 : Z) (d : Device) : Device :=
  mkDevice (<[register := Z.lor (Z.shiftl b0 8) b1]> (registers d)) (calls d).

Definition chip_load (register : Z) (d : Device) : Z * Z :=
  let r := reg16 d register in (Z.shiftr r 8, Z.land r 0xFF).

(** Modelled from the spec: the bus primitive under [write16] and
    [readU16], which is not part of the repository.  It is little-endian:
    the low byte of the word is the first data byte on the wire. *)
Definition write_word_data (register value : Z) (d : Device) : Device :=
  chip_store register (Z.land value 0xFF) (Z.land (Z.shiftr value 8) 0xFF) d.

Definition read_word_data (register : Z) (d : Device) : Z :=
  let '(b0, b1) := chip_load register d in Z.lor b0 (Z.shiftl b1 8).

Definition record (op : BusOp) (d : Device) : Device :=
  mkDevice (registers d) (calls d ++ [op]).

(** Modelled from the spec: [write16], [readU16], [readS16] and their
    big-endian variants of the transport package, which is not part of the
    repository.  Reads swap the two bytes when big-endian order is asked
    for; the write has no such option. *)
Definition write16 (register value : Z) (d : Device) : Device :=
  let d := record (Write16 register value) d in
  let value := Z.land value 0xFFFF in
  write_word_data register value d.

Definition readU16 (register : Z) (little_endian : bool) (d : Device)
  : Z * Device :=
  let result := Z.land (read_word_data register d) 0xFFFF in
  let result :=
    if negb little_endian
    then Z.land (Z.shiftl result 8) 0xFF00 + Z.shiftr result 8
    else result in
  (result, record (Read16 register) d).

Definition readS16 (register : Z) (little_endian : bool) (d : Device)
  : Z * Device :=
  let '(result, d') := readU16 register little_endian d in
  ((if 32767 <? result then result - 65536 else result), d').

Definition readU16BE (register : Z) : Device -> Z * Device :=
  readU16 register false.

Definition readS16BE (register : Z) : Device -> Z * Device :=
  readS16 register false.

End I2C.

(** ** The driver object and its control flow *)

(** What [self._logger.debug] is called with; the formatting of the message
    is left out, the values formatted are kept. *)
Inductive LogRecord : Type :=
| LogSamplerate (samplerate : Z)
| LogManufacturerID (mid : Z)
| LogDeviceID (did : Z)
| LogSleep
| LogWake
| LogRawVoltage (bits : Z) (microvolts : float)
| LogRawTemperature (bits : Z) (celsius : float)
| LogVobj (nanovolts : float)
| LogTdie (kelvin : float).

(** The two attributes of a [TMP006] object. *)
Record TMP006 : Type := mkTMP006 {
  _device : I2C.Device;
  _logger : list LogRecord
}.

Inductive Exception : Type :=
| ValueError
| ZeroDivisionError.

Inductive Result (A : Type) : Type :=
| Return (a : A)
| Raise (e : Exception).
Arguments Return {A} a.
Arguments Raise {A} e.

(** A method body: it runs on the object and leaves a result or an exception
    and the object as it then is. *)
Definition M (A : Type) : Type := TMP006 -> Result A * TMP006.

Definition ret {A} (a : A) : M A := fun self => (Return a, self).

Definition raise {A} (e : Exception) : M A := fun self => (Raise e, self).

Definition bind {A B} (m : M A) (k : A -> M B) : M B :=
  fun self =>
    match m self with
    | (Return a, self') => k a self'
    | (Raise e, self') => (Raise e, self')
    end.

Notation "'let*' x ':=' m 'in' k" := (bind m (fun x => k))
  (at level 10, x pattern, m at level 100, k at level 200).

Definition debug (r : LogRecord) : M unit :=
  fun self => (Return tt, mkTMP006 (_device self) (_logger self ++ [r])).

Definition device_write16 (register value : Z) : M unit :=
  fun self =>
    (Return tt, mkTMP006 (I2C.write16 register value (_device self)) (_logger self)).

Definition device_readU16BE (register : Z) : M Z :=
  fun self =>
    let '(v, d) := I2C.readU16BE register (_device self) in
    (Return v, mkTMP006 d (_logger self)).

Definition device_readS16BE (register : Z) : M Z :=
  fun self =>
    let '(v, d) := I2C.readS16BE register (_device self) in
    (Return v, mkTMP006 d (_logger self)).

(** ** Configuration and power state *)

Definition samplerates : list Z :=
  [CFG_1SAMPLE; CFG_2SAMPLE; CFG_4SAMPLE; CFG_8SAMPLE; CFG_16SAMPLE].

(** The byte flip written out in [begin]. *)
Definition flip_bytes (config : Z) : Z :=
  Z.lor (Z.shiftl (Z.land config 0xFF) 8) (Z.shiftr config 8).

(** The configuration word of [begin] before the flip. *)
Definition config_word (samplerate : Z) : Z :=
  Z.lor (Z.lor TMP006_CFG_MODEON TMP006_CFG_DRDYEN) samplerate.

Definition begin (samplerate : Z) : M bool :=
  if negb (existsb (Z.eqb samplerate) samplerates)
  then raise ValueError
  else
    let* _ := debug (LogSamplerate samplerate) in
    let config := config_word samplerate in
    let config := flip_bytes config in
    let* _ := device_write16 TMP006_CONFIG config in
    let* mid := device_readU16BE TMP006_MANID in
    let* did := device_readU16BE TMP006_DEVID in
    let* _ := debug (LogManufacturerID mid) in
    let* _ := debug (LogDeviceID did) in
    ret ((mid =? 0x5449) && (did =? 0x0067)).

Definition sleep : M unit :=
  let* control := device_readU16BE TMP006_CONFIG in
  let control := Z.land control (Z.lnot TMP006_CFG_MODEON) in
  let* _ := device_write16 TMP006_CONFIG control in
  debug LogSleep.

Definition wake : M unit :=
  let* control := device_readU16BE TMP006_CONFIG in
  let control := Z.lor control TMP006_CFG_MODEON in
  let* _ := device_write16 TMP006_CONFIG control in
  debug LogWake.

(** ** Raw register access *)

(** Python's conversion of an [int] operand of a float operation.  It is
    exact below 2^53, so for every value a 16-bit register can give. *)
Definition float_of_int (n : Z) : float :=
  if n <? 0
  then (- PrimFloat.of_uint63 (Uint63.of_Z (- n)))%float
  else PrimFloat.of_uint63 (Uint63.of_Z n).

(** Python's [/] on floats. *)
Definition truediv (x y : float) : M float :=
  if (y =? 0)%float then raise ZeroDivisionError else ret (x / y)%float.

(** [math.sqrt]: a domain error on a negative argument, the IEEE square root
    otherwise (a NaN argument is handed through). *)
Definition math_sqrt (x : float) : M float :=
  if (x <? 0)%float then raise ValueError else ret (PrimFloat.sqrt x).

Definition readRawVoltage : M Z :=
  let* raw := device_readS16BE TMP006_VOBJ in
  let* uV := truediv (float_of_int raw * 156.25)%float 1000.0%float in
  let* _ := debug (LogRawVoltage (Z.land raw 0xFFFF) uV) in
  ret raw.

Definition readRawDieTemperature : M Z :=
  let* raw := device_readS16BE TMP006_TAMB in
  let* q := truediv (float_of_int raw) 4.0%float in
  let* _ := debug (LogRawTemperature (Z.land raw 0xFFFF) (q * 0.03125)%float) in
  ret (Z.shiftr raw 2).

(** ** Temperature conversion *)

Definition readDieTempC : M float :=
  let* Tdie := readRawDieTemperature in
  ret (float_of_int Tdie * 0.03125)%float.

Section Conversion.

(** [math.pow] of the Python library, the C library's [pow] underneath.  It
    is outside the repository and is taken as a parameter: a function of
    its two arguments.  On the arguments [readObjTempC] passes (finite
    bases, exponents 2.0 and 4.0) it returns and raises nothing. *)
Variable pow : float -> float -> float.

Definition readObjTempC : M float :=
  let* Tdie := readRawDieTemperature in
  let* Vobj := readRawVoltage in
  let Vobj := (float_of_int Vobj * 156.25)%float in
  let* _ := debug (LogVobj Vobj) in
  let* Vobj := truediv Vobj 1000000000.0%float in
  let Tdie := (float_of_int Tdie * 0.03125)%float in
  let Tdie := (Tdie + 273.14)%float in
  let* _ := debug (LogTdie Tdie) in
  let Tdie_ref := (Tdie - TMP006_TREF)%float in
  let S := (1.0 + TMP006_A1 * Tdie_ref + TMP006_A2 * pow Tdie_ref 2.0)%float in
  let S := (S * TMP006_S0)%float in
  let* S := truediv S 10000000.0%float in
  let* S := truediv S 10000000.0%float in
  let Vos :=
    (TMP006_B0 + TMP006_B1 * Tdie_ref + TMP006_B2 * pow Tdie_ref 2.0)%float in
  let fVobj :=
    ((Vobj - Vos) + TMP006_C2 * pow (Vobj - Vos) 2.0)%float in
  let p := pow Tdie 4.0%float in
  let* q := truediv fVobj S in
  let* r := math_sqrt (p + q)%float in
  let* Tobj := math_sqrt r in
  ret (Tobj - 273.15)%float.

(** *** The step sequence of the specification

    Written from the specification's words, on IEEE operations that always
    return: [rawDieTemp] is the die count after the 2-bit shift. *)
Section Steps.
Variables rawDieTemp rawVoltage : Z.

Definition step_Vobj : float :=
  (float_of_int rawVoltage * 156.25 / 1e9)%float.
Definition step_Tdie : float :=
  (float_of_int rawDieTemp * 0.03125 + 273.14)%float.
Definition step_Tdie_ref : float := (step_Tdie - 298.15)%float.
Definition step_S : float :=
  (6.4 * (1 + TMP006_A1 * step_Tdie_ref + TMP006_A2 * pow step_Tdie_ref 2)
   / 1e7 / 1e7)%float.
Definition step_Vos : float :=
  (TMP006_B0 + TMP006_B1 * step_Tdie_ref
   + TMP006_B2 * pow step_Tdie_ref 2)%float.
Definition step_fVobj : float :=
  ((step_Vobj - step_Vos)
   + TMP006_C2 * pow (step_Vobj - step_Vos) 2)%float.
Definition step_radicand : float :=
  (pow step_Tdie 4 + step_fVobj / step_S)%float.
Definition step_Tobj : float :=
  PrimFloat.sqrt (PrimFloat.sqrt step_radicand).
Definition steps_objTempC : float := (step_Tobj - 273.15)%float.
End Steps.

End Conversion.

(** ** Auxiliary definitions for the statements *)

(** The signed reading of a 16-bit word, as [readS16] computes it. *)
Definition signed16 (u : Z) : Z := if 32767 <? u then u - 65536 else u.

(** The two bytes of a 16-bit word exchanged, in arithmetic. *)
Definition byte_swap (w : Z) : Z := (w mod 256) * 256 + w / 256.

(** [span n z p]: [p] holds of the [2^n] integers from [z] on. *)
Fixpoint span (n : nat) (z : Z) (p : Z -> bool) : bool :=
  match n with
  | O => p z
  | S k => span k z p && span k (z + 2 ^ Z.of_nat k) p
  end.

(** A check of [p] on every 16-bit word. *)
Definition word16_check (p : Z -> bool) : bool := span 16 0 p.

(** The correctly rounded power [x^n] for a positive integer [n]: the exact
    power of the significand, rounded once to nearest-even. *)
Definition pow_int (x : float) (n : positive) : float :=
  match Prim2SF x with
  | S754_finite s m e =>
      SF2Prim (binary_round prec emax (s && Z.odd (Z.pos n))
                 (m ^ n)%positive (e * Z.pos n))
  | S754_zero s => SF2Prim (S754_zero (s && Z.odd (Z.pos n)))
  | S754_infinity s => SF2Prim (S754_infinity (s && Z.odd (Z.pos n)))
  | S754_nan => nan
  end.

(** A reference instance of the [pow] parameter, used where a statement is
    evaluated on a concrete input: correctly rounded on the two exponents the
    driver passes. *)
Definition pow_rn (x y : float) : float :=
  if (y =? 2)%float then pow_int x 2
  else if (y =? 4)%float then pow_int x 4
  else nan.

(** A driver object on a sensor whose registers hold the given words, with
    no call made and nothing logged yet. *)
Definition fresh (regs : list (Z * Z)) : TMP006 :=
  mkTMP006 (I2C.mkDevice (list_to_map regs) []) [].

(** The device and the log [begin] leaves behind on an accepted rate. *)
Definition begin_device (sr : Z) (d : I2C.Device) : I2C.Device :=
  I2C.record (I2C.Read16 TMP006_DEVID)
    (I2C.record (I2C.Read16 TMP006_MANID)
       (I2C.write16 TMP006_CONFIG (flip_bytes (config_word sr)) d)).

(** [c_to_f] of [examples/simpletest.py].  The divisor is the literal 5.0,
    so Python's [/] cannot raise here. *)
Definition c_to_f (c : float) : float := (c * 9.0 / 5.0 + 32.0)%float.

(** The die temperature in degrees for a die count, as [readDieTempC]
    computes it from the count. *)
Definition die_celsius (count : Z) : float :=
  (float_of_int count * 0.03125)%float.

(** ** The transport *)

Lemma span_spec (p : Z -> bool) (n : nat) :
  forall z, span n z p = true ->
  forall x, z <= x < z + 2 ^ Z.of_nat n -> p x = true.
Proof.
  induction n as [|k IH]; intros z H x Hx.
  - simpl in *. replace x with z by lia. exact H.
  - cbn [span] in H. apply andb_true_iff in H as [Hlo Hhi].
    rewrite Nat2Z.inj_succ, Z.pow_succ_r in Hx by lia.
    destruct (Z_lt_dec x (z + 2 ^ Z.of_nat k)) as [Hlt|Hge].
    + apply (IH z Hlo). lia.
    + apply (IH _ Hhi). lia.
Qed.

Lemma word16_check_spec (p : Z -> bool) :
  word16_check p = true -> forall x, 0 <= x < 65536 -> p x = true.
Proof.
  intros H x Hx. apply (span_spec p 16 0 H). exact Hx.
Qed.

Lemma land_FFFF_range (x : Z) : 0 <= Z.land x 0xFFFF < 65536.
Proof.
  change 0xFFFF with (Z.ones 16). rewrite Z.land_ones by lia.
  apply Z.mod_pos_bound. reflexivity.
Qed.

Lemma reg16_range (d : I2C.Device) (r : Z) : 0 <= I2C.reg16 d r < 65536.
Proof. apply land_FFFF_range. Qed.

Lemma land_FFFF_id (x : Z) : 0 <= x < 65536 -> Z.land x 0xFFFF = x.
Proof.
  intros Hx. change 0xFFFF with (Z.ones 16). rewrite Z.land_ones by lia.
  apply Z.mod_small. exact Hx.
Qed.

(** What a big-endian read does to the word on the wire gives back the word
    the sensor holds. *)
Lemma wire_read_word (x : Z) :
  0 <= x < 65536 ->
  let result := Z.land (Z.lor (Z.shiftr x 8) (Z.shiftl (Z.land x 0xFF) 8)) 0xFFFF in
  Z.land (Z.shiftl result 8) 0xFF00 + Z.shiftr result 8 = x.
Proof.
  intros Hx. apply Z.eqb_eq.
  apply (word16_check_spec
           (fun x =>
              let result :=
                Z.land (Z.lor (Z.shiftr x 8) (Z.shiftl (Z.land x 0xFF) 8)) 0xFFFF in
              Z.land (Z.shiftl result 8) 0xFF00 + Z.shiftr result 8 =? x));
    [vm_compute; reflexivity | exact Hx].
Qed.

(** What a write leaves in the register is the word handed over with its two
    bytes exchanged. *)
Lemma wire_write_word (v : Z) :
  0 <= v < 65536 ->
  Z.land (Z.lor (Z.shiftl (Z.land v 0xFF) 8) (Z.land (Z.shiftr v 8) 0xFF)) 0xFFFF
  = byte_swap v.
Proof.
  intros Hv. apply Z.eqb_eq.
  apply (word16_check_spec
           (fun v =>
              Z.land (Z.lor (Z.shiftl (Z.land v 0xFF) 8)
                        (Z.land (Z.shiftr v 8) 0xFF)) 0xFFFF
              =? byte_swap v));
    [vm_compute; reflexivity | exact Hv].
Qed.

Lemma readU16BE_run (r : Z) (d : I2C.Device) :
  I2C.readU16BE r d = (I2C.reg16 d r, I2C.record (I2C.Read16 r) d).
Proof.
  unfold I2C.readU16BE, I2C.readU16, I2C.read_word_data, I2C.chip_load.
  cbn [negb]. f_equal. apply wire_read_word, reg16_range.
Qed.

Lemma readS16BE_run (r : Z) (d : I2C.Device) :
  I2C.readS16BE r d = (signed16 (I2C.reg16 d r), I2C.record (I2C.Read16 r) d).
Proof.
  unfold I2C.readS16BE, I2C.readS16.
  change (I2C.readU16 r false d) with (I2C.readU16BE r d).
  rewrite readU16BE_run. reflexivity.
Qed.

Lemma reg16_record (op : I2C.BusOp) (d : I2C.Device) (r : Z) :
  I2C.reg16 (I2C.record op d) r = I2C.reg16 d r.
Proof. reflexivity. Qed.

Lemma calls_record (op : I2C.BusOp) (d : I2C.Device) :
  I2C.calls (I2C.record op d) = I2C.calls d ++ [op].
Proof. reflexivity. Qed.

Lemma calls_write16 (r v : Z) (d : I2C.Device) :
  I2C.calls (I2C.write16 r v d) = I2C.calls d ++ [I2C.Write16 r v].
Proof. reflexivity. Qed.

Lemma reg16_write16 (r v : Z) (d : I2C.Device) (r' : Z) :
  I2C.reg16 (I2C.write16 r v d) r' =
  if decide (r = r') then byte_swap (Z.land v 0xFFFF) else I2C.reg16 d r'.
Proof.
  unfold I2C.write16, I2C.write_word_data, I2C.chip_store, I2C.reg16.
  cbn [I2C.registers I2C.record].
  destruct (decide (r = r')) as [->|Hne].
  - rewrite lookup_insert_eq. cbn [default].
    apply wire_write_word, land_FFFF_range.
  - rewrite lookup_insert_ne by exact Hne. reflexivity.
Qed.

(** ** Running the driver's calls into the transport *)

Lemma device_readU16BE_run (r : Z) (self : TMP006) :
  device_readU16BE r self =
  (Return (I2C.reg16 (_device self) r),
   mkTMP006 (I2C.record (I2C.Read16 r) (_device self)) (_logger self)).
Proof. unfold device_readU16BE. rewrite readU16BE_run. reflexivity. Qed.

Lemma device_readS16BE_run (r : Z) (self : TMP006) :
  device_readS16BE r self =
  (Return (signed16 (I2C.reg16 (_device self) r)),
   mkTMP006 (I2C.record (I2C.Read16 r) (_device self)) (_logger self)).
Proof. unfold device_readS16BE. rewrite readS16BE_run. reflexivity. Qed.

Lemma samplerate_accepted (sr : Z) :
  existsb (Z.eqb sr) samplerates = true <-> In sr samplerates.
Proof.
  rewrite existsb_exists. split.
  - intros (x & Hin & Heq). apply Z.eqb_eq in Heq. subst x. exact Hin.
  - intros Hin. exists sr. split; [exact Hin | apply Z.eqb_refl].
Qed.

Lemma begin_run (sr : Z) (self : TMP006) :
  In sr samplerates ->
  begin sr self =
  (Return ((I2C.reg16 (_device self) TMP006_MANID =? 0x5449)
           && (I2C.reg16 (_device self) TMP006_DEVID =? 0x0067)),
   mkTMP006 (begin_device sr (_device self))
     (_logger self ++
      [LogSamplerate sr;
       LogManufacturerID (I2C.reg16 (_device self) TMP006_MANID);
       LogDeviceID (I2C.reg16 (_device self) TMP006_DEVID)])).
Proof.
  intros Hin. apply samplerate_accepted in Hin.
  unfold begin. rewrite Hin. cbn [negb].
  unfold bind, debug, device_write16, ret.
  rewrite device_readU16BE_run. cbn [_device _logger].
  rewrite device_readU16BE_run. cbn [_device _logger].
  rewrite !reg16_record, !reg16_write16.
  rewrite !decide_False by (unfold TMP006_CONFIG, TMP006_MANID, TMP006_DEVID; lia).
  unfold begin_device. rewrite <- !app_assoc. reflexivity.
Qed.

Lemma begin_rejected (sr : Z) (self : TMP006) :
  ~ In sr samplerates -> begin sr self = (Raise ValueError, self).
Proof.
  intros Hnot. unfold begin.
  destruct (existsb (Z.eqb sr) samplerates) eqn:E.
  - apply samplerate_accepted in E. contradiction.
  - reflexivity.
Qed.

Lemma sleep_run (self : TMP006) :
  sleep self =
  (Return tt,
   mkTMP006
     (I2C.write16 TMP006_CONFIG
        (Z.land (I2C.reg16 (_device self) TMP006_CONFIG) (Z.lnot TMP006_CFG_MODEON))
        (I2C.record (I2C.Read16 TMP006_CONFIG) (_device self)))
     (_logger self ++ [LogSleep])).
Proof.
  unfold sleep, bind. rewrite device_readU16BE_run. reflexivity.
Qed.

Lemma wake_run (self : TMP006) :
  wake self =
  (Return tt,
   mkTMP006
     (I2C.write16 TMP006_CONFIG
        (Z.lor (I2C.reg16 (_device self) TMP006_CONFIG) TMP006_CFG_MODEON)
        (I2C.record (I2C.Read16 TMP006_CONFIG) (_device self)))
     (_logger self ++ [LogWake])).
Proof.
  unfold wake, bind. rewrite device_readU16BE_run. reflexivity.
Qed.

(** Bit facts about the words [sleep] and [wake] hand over. *)
Lemma sleep_word_bits (c : Z) :
  0 <= c < 65536 ->
  let w := Z.land c (Z.lnot TMP006_CFG_MODEON) in
  (0 <= w < 65536) /\ Z.land w 0x7000 = 0 /\ Z.land w 0x8FFF = Z.land c 0x8FFF.
Proof.
  intros Hc.
  pose (p := fun c : Z =>
               let w := Z.land c (Z.lnot TMP006_CFG_MODEON) in
               (0 <=? w) && (w <? 65536) && (Z.land w 0x7000 =? 0)
               && (Z.land w 0x8FFF =? Z.land c 0x8FFF)).
  assert (H : p c = true)
    by (apply word16_check_spec; [vm_compute; reflexivity | exact Hc]).
  unfold p in H. cbv zeta in H.
  repeat (apply andb_true_iff in H as [H ?]).
  cbv zeta. repeat split; try lia.
Qed.

Lemma wake_word_bits (c : Z) :
  0 <= c < 65536 ->
  let w := Z.lor c TMP006_CFG_MODEON in
  (0 <= w < 65536) /\ Z.land w 0x7000 = 0x7000
  /\ Z.land w 0x8FFF = Z.land c 0x8FFF.
Proof.
  intros Hc.
  pose (p := fun c : Z =>
               let w := Z.lor c TMP006_CFG_MODEON in
               (0 <=? w) && (w <? 65536) && (Z.land w 0x7000 =? 0x7000)
               && (Z.land w 0x8FFF =? Z.land c 0x8FFF)).
  assert (H : p c = true)
    by (apply word16_check_spec; [vm_compute; reflexivity | exact Hc]).
  unfold p in H. cbv zeta in H.
  repeat (apply andb_true_iff in H as [H ?]).
  cbv zeta. repeat split; try lia.
Qed.

(** What the sensor holds after [sleep] then [wake], in terms of what it
    held before. *)
Lemma sleep_wake_register_bits (c : Z) :
  0 <= c < 65536 ->
  byte_swap
    (Z.land
       (Z.lor (byte_swap (Z.land (Z.land c (Z.lnot TMP006_CFG_MODEON)) 0xFFFF))
          TMP006_CFG_MODEON) 0xFFFF)
  = Z.lor (Z.land c 0x8FFF) 0x0070.
Proof.
  intros Hc. apply Z.eqb_eq.
  apply (word16_check_spec
           (fun c =>
              byte_swap
                (Z.land
                   (Z.lor
                      (byte_swap
                         (Z.land (Z.land c (Z.lnot TMP006_CFG_MODEON)) 0xFFFF))
                      TMP006_CFG_MODEON) 0xFFFF)
              =? Z.lor (Z.land c 0x8FFF) 0x0070));
    [vm_compute; reflexivity | exact Hc].
Qed.

(** ** Floating-point facts *)

Lemma float_mul_comm (x y : float) : (x * y = y * x)%float.
Proof.
  apply Prim2SF_inj. rewrite !FloatAxioms.mul_spec.
  unfold SF64mul, SFmul.
  destruct (Prim2SF x) as [sx|sx| |sx mx ex], (Prim2SF y) as [sy|sy| |sy my ey];
    try reflexivity; try (rewrite (xorb_comm sx sy); reflexivity).
  rewrite (xorb_comm sx sy), (Pos.mul_comm mx my), (Z.add_comm ex ey).
  reflexivity.
Qed.

Lemma round_aux_not_negative (m e : Z) (l : location) :
  SFltb (binary_round_aux prec emax false m e l) (S754_zero false) = false.
Proof.
  unfold binary_round_aux.
  destruct (shr_fexp prec emax m e l) as [mrs' e'].
  destruct (shr_fexp prec emax _ e' loc_Exact) as [mrs'' e''].
  destruct (shr_m mrs'') as [|p|p]; try reflexivity.
  destruct (e'' <=? emax - prec)%Z; reflexivity.
Qed.

Lemma sqrt_not_negative (x : float) : (PrimFloat.sqrt x <? 0)%float = false.
Proof.
  rewrite FloatAxioms.ltb_spec, FloatAxioms.sqrt_spec.
  change (Prim2SF 0) with (S754_zero false).
  unfold SF64sqrt, SFsqrt.
  destruct (Prim2SF x) as [s|[|]| |[|] m e]; try reflexivity.
  destruct (SFsqrt_core_binary prec emax (Z.pos m) e) as [[mz ez] lz].
  apply round_aux_not_negative.
Qed.

Lemma float_sub_diag (x : float) :
  is_finite x = true -> (x - x)%float = 0%float.
Proof.
  intros Hfin. apply Prim2SF_inj. rewrite FloatAxioms.sub_spec.
  change (Prim2SF 0) with (S754_zero false).
  unfold is_finite, is_nan, is_infinity in Hfin.
  rewrite !FloatAxioms.eqb_spec, abs_spec in Hfin.
  change (Prim2SF infinity) with (S754_infinity false) in Hfin.
  unfold SF64sub, SFsub.
  destruct (Prim2SF x) as [[|]|s| |s m e]; try reflexivity;
    try discriminate Hfin.
  - destruct s; discriminate Hfin.
  - cbv zeta. rewrite Z.sub_diag. reflexivity.
Qed.

Lemma readRawDieTemperature_run (self : TMP006) :
  let raw := signed16 (I2C.reg16 (_device self) TMP006_TAMB) in
  readRawDieTemperature self =
  (Return (Z.shiftr raw 2),
   mkTMP006 (I2C.record (I2C.Read16 TMP006_TAMB) (_device self))
     (_logger self ++
      [LogRawTemperature (Z.land raw 0xFFFF)
         (float_of_int raw / 4 * 0.03125)%float])).
Proof.
  unfold readRawDieTemperature, bind.
  rewrite device_readS16BE_run. reflexivity.
Qed.

Lemma readRawVoltage_run (self : TMP006) :
  let raw := signed16 (I2C.reg16 (_device self) TMP006_VOBJ) in
  readRawVoltage self =
  (Return raw,
   mkTMP006 (I2C.record (I2C.Read16 TMP006_VOBJ) (_device self))
     (_logger self ++
      [LogRawVoltage (Z.land raw 0xFFFF)
         (float_of_int raw * 156.25 / 1000)%float])).
Proof.
  unfold readRawVoltage, bind.
  rewrite device_readS16BE_run. reflexivity.
Qed.

Lemma readDieTempC_run (self : TMP006) :
  readDieTempC self =
  (Return
     (float_of_int (Z.shiftr (signed16 (I2C.reg16 (_device self) TMP006_TAMB)) 2)
      * 0.03125)%float,
   snd (readRawDieTemperature self)).
Proof.
  unfold readDieTempC, bind.
  rewrite readRawDieTemperature_run. reflexivity.
Qed.

Lemma readObjTempC_result (pow : float -> float -> float) (self : TMP006) :
  let rawDieTemp :=
    Z.shiftr (signed16 (I2C.reg16 (_device self) TMP006_TAMB)) 2 in
  let rawVoltage := signed16 (I2C.reg16 (_device self) TMP006_VOBJ) in
  fst (readObjTempC pow self) =
  if (step_S pow rawDieTemp =? 0)%float then Raise ZeroDivisionError
  else if (step_radicand pow rawDieTemp rawVoltage <? 0)%float
       then Raise ValueError
       else Return (steps_objTempC pow rawDieTemp rawVoltage).
Proof.
  cbv zeta. unfold readObjTempC, bind.
  rewrite readRawDieTemperature_run. cbv zeta.
  rewrite readRawVoltage_run. cbv zeta.
  cbn [_device _logger]. rewrite reg16_record.
  set (d := Z.shiftr (signed16 (I2C.reg16 (_device self) TMP006_TAMB)) 2).
  set (v := signed16 (I2C.reg16 (_device self) TMP006_VOBJ)).
  unfold debug, truediv, math_sqrt, ret, raise.
  change (1000000000 =? 0)%float with false.
  change (10000000 =? 0)%float with false.
  cbv beta iota.
  unfold steps_objTempC, step_Tobj, step_radicand, step_fVobj, step_Vos,
    step_S, step_Vobj, step_Tdie_ref, step_Tdie, TMP006_TREF, TMP006_S0.
  rewrite (float_mul_comm 6.4 _).
  match goal with |- context [if (?s =? 0)%float then _ else _] =>
    destruct (s =? 0)%float end; [reflexivity|].
  cbv beta iota.
  match goal with |- context [if (?r <? 0)%float then _ else _] =>
    destruct (r <? 0)%float end; [reflexivity|].
  cbv beta iota. rewrite sqrt_not_negative. reflexivity.
Qed.

Lemma signed16_mod (v : Z) :
  -32768 <= v <= 32767 -> signed16 (v mod 65536) = v.
Proof.
  intros Hv. unfold signed16.
  destruct (32767 <? v mod 65536) eqn:E;
    [apply Z.ltb_lt in E | apply Z.ltb_ge in E];
    Z.div_mod_to_equations; lia.
Qed.

Lemma signed16_range (u : Z) :
  0 <= u < 65536 -> -32768 <= signed16 u <= 32767.
Proof.
  intros Hu. unfold signed16.
  destruct (32767 <? u) eqn:E;
    [apply Z.ltb_lt in E | apply Z.ltb_ge in E]; lia.
Qed.

Lemma shiftr2_floor (v : Z) :
  Z.shiftr v 2 = v / 4 /\ 4 * Z.shiftr v 2 <= v < 4 * Z.shiftr v 2 + 4.
Proof.
  rewrite Z.shiftr_div_pow2 by lia. change (2 ^ 2) with 4.
  split; [reflexivity | Z.div_mod_to_equations; lia].
Qed.

(** The die temperature in degrees on every 16-bit register content: within
    the two bounds, and exact (scaling back by 32 gives the count). *)
Lemma die_celsius_word16 (u : Z) :
  0 <= u < 65536 ->
  let t := (float_of_int (Z.shiftr (signed16 u) 2) * 0.03125)%float in
  (-256 <=? t)%float = true /\ (t <=? 255.96875)%float = true
  /\ (t * 32)%float = float_of_int (Z.shiftr (signed16 u) 2).
Proof.
  intros Hu.
  pose (p := fun u : Z =>
               let raw := Z.shiftr (signed16 u) 2 in
               let t := (float_of_int raw * 0.03125)%float in
               (-256 <=? t)%float && (t <=? 255.96875)%float
               && PrimFloat.Leibniz.eqb (t * 32)%float (float_of_int raw)).
  assert (H : p u = true)
    by (apply word16_check_spec; [vm_compute; reflexivity | exact Hu]).
  unfold p in H. cbv zeta in H.
  apply andb_true_iff in H as [H Hexact].
  apply andb_true_iff in H as [Hlo Hhi].
  apply FloatAxioms.Leibniz.eqb_spec in Hexact.
  cbv zeta. auto.
Qed.

Lemma calls_begin_device (sr : Z) (d : I2C.Device) :
  I2C.calls (begin_device sr d) =
  I2C.calls d ++
  [I2C.Write16 TMP006_CONFIG (flip_bytes (config_word sr));
   I2C.Read16 TMP006_MANID; I2C.Read16 TMP006_DEVID].
Proof.
  unfold begin_device. rewrite !calls_record, calls_write16.
  rewrite <- !app_assoc. reflexivity.
Qed.

Lemma reg16_begin_device (sr : Z) (d : I2C.Device) (r : Z) :
  I2C.reg16 (begin_device sr d) r =
  if decide (TMP006_CONFIG = r)
  then byte_swap (Z.land (flip_bytes (config_word sr)) 0xFFFF)
  else I2C.reg16 d r.
Proof.
  unfold begin_device. rewrite !reg16_record. apply reg16_write16.
Qed.

(** * The claims *)

(** ** Configuration and power state *)

(** C2, counterexample.  Read on the integers 1, 2, 4, 8 and 16 the claim is
    false: [begin] raises on the argument 16, which is one of them.  (It
    likewise accepts the argument 0, which is none of them.) *)
Lemma begin_integer_rate_counterexample :
  ~ ((exists e, fst (begin 16 (fresh [])) = Raise e)
     <-> ~ In 16 [1; 2; 4; 8; 16]).
Proof.
  intros [Hfails _]. apply Hfails.
  - exists ValueError. reflexivity.
  - right; right; right; right; left. reflexivity.
Qed.

(** C2, as amended.  [begin] raises (a [ValueError]) if and only if its
    argument is not one of the five sample-rate bit masks 0x0000, 0x0200,
    0x0400, 0x0600 and 0x0800; when it raises, the object is as it was: no
    register was written or read and nothing was logged. *)
Theorem begin_rejects_unlisted_mask (samplerate : Z) (self : TMP006) :
  ((exists e, fst (begin samplerate self) = Raise e)
   <-> ~ In samplerate [0x0000; 0x0200; 0x0400; 0x0600; 0x0800])
  /\ (~ In samplerate [0x0000; 0x0200; 0x0400; 0x0600; 0x0800] ->
      begin samplerate self = (Raise ValueError, self)).
Proof.
  change [0x0000; 0x0200; 0x0400; 0x0600; 0x0800] with samplerates.
  split; [split|].
  - intros [e He] Hin. rewrite (begin_run _ _ Hin) in He. discriminate He.
  - intros Hnot. exists ValueError. rewrite (begin_rejected _ _ Hnot).
    reflexivity.
  - apply begin_rejected.
Qed.

Lemma begin_rejects_unlisted_mask_witness :
  ~ In 16 [0x0000; 0x0200; 0x0400; 0x0600; 0x0800]
  /\ begin 16 (fresh [(TMP006_CONFIG, 0x7400)])
     = (Raise ValueError, fresh [(TMP006_CONFIG, 0x7400)]).
Proof.
  assert (H : ~ In 16 [0x0000; 0x0200; 0x0400; 0x0600; 0x0800])
    by (simpl; lia).
  split; [exact H|].
  exact (proj2 (begin_rejects_unlisted_mask 16 (fresh [(TMP006_CONFIG, 0x7400)])) H).
Defined.

(** C3, counterexample.  On the rates 1, 2, 4, 8 and 16 themselves [begin]
    raises and leaves the object as it was; for the rate 2 no word is handed
    to [write16] and register 0x02 does not receive
    [0x7000 | 0x0100 | 0x0200]. *)
Lemma begin_rate_table_counterexample :
  Forall (fun rate => begin rate (fresh []) = (Raise ValueError, fresh []))
    [1; 2; 4; 8; 16]
  /\ I2C.calls (_device (snd (begin 2 (fresh [])))) <>
     [I2C.Write16 0x02 (byte_swap (Z.lor (Z.lor 0x7000 0x0100) 0x0200));
      I2C.Read16 0xFE; I2C.Read16 0xFF]
  /\ I2C.reg16 (_device (snd (begin 2 (fresh [])))) 0x02
     <> Z.lor (Z.lor 0x7000 0x0100) 0x0200.
Proof.
  split; [repeat constructor|].
  split; vm_compute; discriminate.
Qed.

(** C3, as amended.  [begin] looks up no table: its argument is the
    sample-rate bit mask itself.  For every accepted mask (0x0000, 0x0200,
    0x0400, 0x0600, 0x0800) it returns, and with
    [word = 0x7000 | 0x0100 | mask]: the value handed to the transport's
    [write16] for register 0x02 is [word] with its two bytes exchanged, that
    write comes before the two identity reads, the sensor's register 0x02
    then holds [word], and [word] has the mode-on bits and the
    data-ready-enable bit set and exactly the mask in bits 9 to 11. *)
Theorem begin_writes_mask_word (samplerate : Z) (self : TMP006) :
  In samplerate [0x0000; 0x0200; 0x0400; 0x0600; 0x0800] ->
  let word := Z.lor (Z.lor 0x7000 0x0100) samplerate in
  let self' := snd (begin samplerate self) in
  (exists verified, fst (begin samplerate self) = Return verified)
  /\ I2C.calls (_device self') =
     I2C.calls (_device self) ++
     [I2C.Write16 0x02 (byte_swap word); I2C.Read16 0xFE; I2C.Read16 0xFF]
  /\ I2C.reg16 (_device self') 0x02 = word
  /\ Z.land word 0x7000 = 0x7000
  /\ Z.land word 0x0100 = 0x0100
  /\ Z.land word 0x0E00 = samplerate.
Proof.
  intros Hin word self'.
  assert (Hsr : In samplerate samplerates) by exact Hin.
  subst self'. rewrite (begin_run _ _ Hsr). cbn [fst snd _device].
  rewrite calls_begin_device, reg16_begin_device.
  rewrite decide_True by reflexivity.
  split; [eexists; reflexivity|].
  subst word.
  simpl in Hin.
  destruct Hin as [H|[H|[H|[H|[H|[]]]]]]; subst samplerate;
    repeat split; reflexivity.
Qed.

Lemma begin_writes_mask_word_witness :
  In 0x0800 [0x0000; 0x0200; 0x0400; 0x0600; 0x0800]
  /\ I2C.calls (_device (snd (begin 0x0800 (fresh [])))) =
     [I2C.Write16 0x02 0x0079; I2C.Read16 0xFE; I2C.Read16 0xFF]
  /\ I2C.reg16 (_device (snd (begin 0x0800 (fresh [])))) 0x02 = 0x7900.
Proof.
  assert (H : In 0x0800 [0x0000; 0x0200; 0x0400; 0x0600; 0x0800])
    by (simpl; tauto).
  split; [exact H|].
  destruct (begin_writes_mask_word 0x0800 (fresh []) H)
    as (_ & Hcalls & Hreg & _).
  split; [exact Hcalls | exact Hreg].
Defined.

(** C4.  On an accepted sample rate, [begin] writes the configuration word,
    then reads registers 0xFE and 0xFF, and returns without raising; what it
    returns is [true] if and only if register 0xFE reads 0x5449 and register
    0xFF reads 0x0067, and [false] for every other pair. *)
Theorem begin_verifies_identity (samplerate : Z) (self : TMP006) :
  In samplerate samplerates ->
  exists verified value,
    fst (begin samplerate self) = Return verified
    /\ I2C.calls (_device (snd (begin samplerate self))) =
       I2C.calls (_device self) ++
       [I2C.Write16 0x02 value; I2C.Read16 0xFE; I2C.Read16 0xFF]
    /\ (verified = true <->
        fst (I2C.readU16BE 0xFE (_device self)) = 0x5449
        /\ fst (I2C.readU16BE 0xFF (_device self)) = 0x0067)
    /\ (verified = false <->
        ~ (fst (I2C.readU16BE 0xFE (_device self)) = 0x5449
           /\ fst (I2C.readU16BE 0xFF (_device self)) = 0x0067))
    /\ fst (I2C.readU16BE 0xFE (_device (snd (begin samplerate self))))
       = fst (I2C.readU16BE 0xFE (_device self))
    /\ fst (I2C.readU16BE 0xFF (_device (snd (begin samplerate self))))
       = fst (I2C.readU16BE 0xFF (_device self)).
Proof.
  intros Hsr. rewrite (begin_run _ _ Hsr). cbn [fst snd _device].
  rewrite !readU16BE_run. cbn [fst].
  rewrite !reg16_begin_device, calls_begin_device.
  rewrite !decide_False by (unfold TMP006_CONFIG; lia).
  do 2 eexists. split; [reflexivity|]. split; [reflexivity|].
  change TMP006_MANID with 0xFE. change TMP006_DEVID with 0xFF.
  set (mid := I2C.reg16 (_device self) 0xFE).
  set (did := I2C.reg16 (_device self) 0xFF).
  assert (Hiff : (mid =? 0x5449) && (did =? 0x0067) = true
                 <-> mid = 0x5449 /\ did = 0x0067)
    by (rewrite andb_true_iff, !Z.eqb_eq; reflexivity).
  split; [exact Hiff|]. split; [|split; reflexivity].
  rewrite <- Hiff.
  destruct ((mid =? 0x5449) && (did =? 0x0067)); split; intros H.
  - discriminate H.
  - exfalso. apply H. reflexivity.
  - intros Ht. discriminate Ht.
  - reflexivity.
Qed.

Lemma begin_verifies_identity_witness :
  In CFG_16SAMPLE samplerates
  /\ fst (begin CFG_16SAMPLE (fresh [(0xFE, 0x5449); (0xFF, 0x0067)]))
     = Return true.
Proof.
  assert (H : In CFG_16SAMPLE samplerates) by (simpl; tauto).
  split; [exact H|].
  destruct (begin_verifies_identity CFG_16SAMPLE
              (fresh [(0xFE, 0x5449); (0xFF, 0x0067)]) H)
    as (verified & value & Hret & _ & Htrue & _).
  rewrite Hret. f_equal. apply Htrue. split; reflexivity.
Defined.

(** C5, the code at the failing input.  [begin] exchanges the bytes of its
    word before [write16]; [sleep] and [wake] do not.  Whatever the sensor's
    register 0x02 holds, [sleep] hands [write16] the word it read with the
    mode-on bits cleared and [wake] the word it read with the mode-on bits
    set, each as it stands, so the register then holds that word with its
    bytes exchanged.  On a sensor configured by [begin] for 16 samples
    (0x7900): [sleep] hands over 0x0900 where the exchanged value is 0x0009,
    the register ends at 0x0009; [wake] on a register at 0x0900 hands over
    0x7900 and the register ends at 0x0079. *)
Theorem sleep_wake_write_unswapped (self : TMP006) :
  let c := I2C.reg16 (_device self) 0x02 in
  (I2C.calls (_device (snd (sleep self))) =
   I2C.calls (_device self) ++
   [I2C.Read16 0x02; I2C.Write16 0x02 (Z.land c (Z.lnot 0x7000))]
   /\ I2C.reg16 (_device (snd (sleep self))) 0x02
      = byte_swap (Z.land c (Z.lnot 0x7000)))
  /\ (I2C.calls (_device (snd (wake self))) =
      I2C.calls (_device self) ++
      [I2C.Read16 0x02; I2C.Write16 0x02 (Z.lor c 0x7000)]
      /\ I2C.reg16 (_device (snd (wake self))) 0x02
         = byte_swap (Z.lor c 0x7000))
  /\ (I2C.calls (_device (snd (sleep (fresh [(0x02, 0x7900)])))) =
      [I2C.Read16 0x02; I2C.Write16 0x02 0x0900]
      /\ byte_swap 0x0900 = 0x0009
      /\ I2C.reg16 (_device (snd (sleep (fresh [(0x02, 0x7900)])))) 0x02 = 0x0009)
  /\ (I2C.calls (_device (snd (wake (fresh [(0x02, 0x0900)])))) =
      [I2C.Read16 0x02; I2C.Write16 0x02 0x7900]
      /\ byte_swap 0x7900 = 0x0079
      /\ I2C.reg16 (_device (snd (wake (fresh [(0x02, 0x0900)])))) 0x02 = 0x0079).
Proof.
  intros c.
  assert (Hc : 0 <= c < 65536) by apply reg16_range.
  destruct (sleep_word_bits c Hc) as (Hs & _).
  destruct (wake_word_bits c Hc) as (Hw & _).
  split; [|split; [|split; vm_compute; repeat split; reflexivity]].
  - rewrite sleep_run. cbn [snd _device].
    rewrite calls_write16, calls_record, reg16_write16, <- app_assoc.
    rewrite decide_True by reflexivity.
    split; [reflexivity|]. f_equal. apply land_FFFF_id. exact Hs.
  - rewrite wake_run. cbn [snd _device].
    rewrite calls_write16, calls_record, reg16_write16, <- app_assoc.
    rewrite decide_True by reflexivity.
    split; [reflexivity|]. f_equal. apply land_FFFF_id. exact Hw.
Qed.

(** What the register holds after [sleep] and then [wake]: the mode-on bits
    are clear whatever they were. *)
Lemma sleep_then_wake_register (self : TMP006) :
  I2C.reg16 (_device (snd (wake (snd (sleep self))))) TMP006_CONFIG
  = Z.lor (Z.land (I2C.reg16 (_device self) TMP006_CONFIG) 0x8FFF) 0x0070.
Proof.
  rewrite wake_run. cbn [snd _device].
  rewrite reg16_write16, reg16_record, decide_True by reflexivity.
  rewrite sleep_run. cbn [snd _device].
  rewrite reg16_write16, reg16_record, decide_True by reflexivity.
  apply sleep_wake_register_bits, reg16_range.
Qed.

Lemma mode_off_after_cycle (c : Z) :
  0 <= c < 65536 -> Z.land (Z.lor (Z.land c 0x8FFF) 0x0070) 0x7000 = 0.
Proof.
  intros Hc. apply Z.eqb_eq.
  apply (word16_check_spec
           (fun c => Z.land (Z.lor (Z.land c 0x8FFF) 0x0070) 0x7000 =? 0));
    [vm_compute; reflexivity | exact Hc].
Qed.

(** C6, the code at the failing input.  Whatever the configuration register
    holds, after [sleep] and then [wake] its mode-on bits are clear: they
    equal their value before [sleep] exactly when that value was zero.  On a
    sensor started by [begin] for 16 samples (register at 0x7900, mode-on
    set) the register ends at 0x0970, mode-on clear. *)
Theorem sleep_wake_loses_mode_on (self : TMP006) :
  let before := Z.land (I2C.reg16 (_device self) 0x02) 0x7000 in
  let after :=
    Z.land (I2C.reg16 (_device (snd (wake (snd (sleep self))))) 0x02) 0x7000 in
  after = 0
  /\ (after = before <-> before = 0)
  /\ I2C.reg16
       (_device (snd (wake (snd (sleep (fresh [(0x02, 0x7900)])))))) 0x02
     = 0x0970
  /\ Z.land 0x0970 0x7000 = 0
  /\ Z.land 0x7900 0x7000 = 0x7000.
Proof.
  intros before after.
  assert (Hafter : after = 0).
  { subst after. pose proof (sleep_then_wake_register self) as H.
    change TMP006_CONFIG with 0x02 in H. rewrite H.
    apply mode_off_after_cycle, reg16_range. }
  split; [exact Hafter|]. split.
  - rewrite Hafter. split; intros H; symmetry; exact H.
  - vm_compute. repeat split; reflexivity.
Qed.

(** ** Raw register access and conversion *)

(** C7.  For every signed 16-bit value [v] that the ambient-temperature
    register (0x01) holds (as the two's-complement word [v mod 65536]),
    [readRawDieTemperature] reads that register once, writes nothing and
    returns [v] shifted right by 2 with its sign kept: the floor of [v / 4],
    also for negative [v]. *)
Theorem readRawDieTemperature_shift (v : Z) (self : TMP006) :
  -32768 <= v <= 32767 ->
  I2C.reg16 (_device self) 0x01 = v mod 65536 ->
  fst (I2C.readS16BE 0x01 (_device self)) = v
  /\ fst (readRawDieTemperature self) = Return (Z.shiftr v 2)
  /\ Z.shiftr v 2 = v / 4
  /\ 4 * Z.shiftr v 2 <= v < 4 * Z.shiftr v 2 + 4
  /\ I2C.calls (_device (snd (readRawDieTemperature self))) =
     I2C.calls (_device self) ++ [I2C.Read16 0x01]
  /\ I2C.registers (_device (snd (readRawDieTemperature self))) =
     I2C.registers (_device self).
Proof.
  intros Hv Hreg.
  pose proof (readRawDieTemperature_run self) as Hrun. cbv zeta in Hrun.
  change TMP006_TAMB with 0x01 in Hrun.
  rewrite Hreg, (signed16_mod v Hv) in Hrun.
  rewrite Hrun, readS16BE_run, Hreg, (signed16_mod v Hv).
  destruct (shiftr2_floor v) as [Hdiv Hfloor].
  repeat split; try assumption; apply Hfloor.
Qed.

Lemma readRawDieTemperature_shift_witness :
  (-32768 <= -5 <= 32767)
  /\ I2C.reg16 (_device (fresh [(0x01, 0xFFFB)])) 0x01 = (-5) mod 65536
  /\ fst (readRawDieTemperature (fresh [(0x01, 0xFFFB)])) = Return (-2).
Proof.
  assert (Hv : -32768 <= -5 <= 32767) by lia.
  assert (Hreg : I2C.reg16 (_device (fresh [(0x01, 0xFFFB)])) 0x01
                 = (-5) mod 65536) by reflexivity.
  split; [exact Hv|]. split; [exact Hreg|].
  exact (proj1 (proj2
    (readRawDieTemperature_shift (-5) (fresh [(0x01, 0xFFFB)]) Hv Hreg))).
Defined.

(** C8.  [readDieTempC] returns the value of [readRawDieTemperature]
    multiplied by 0.03125 in binary64, and the product is exact (multiplying
    it by 32 gives the count back).  It returns 0.0 when the shifted count is
    0, and 0.03125 when register 0x01 holds 0x0004 (shifted count 1). *)
Theorem readDieTempC_scaling (self : TMP006) :
  exists raw,
    fst (readRawDieTemperature self) = Return raw
    /\ fst (readDieTempC self) = Return (float_of_int raw * 0.03125)%float
    /\ (float_of_int raw * 0.03125 * 32)%float = float_of_int raw
    /\ (raw = 0 -> fst (readDieTempC self) = Return 0%float)
    /\ (I2C.reg16 (_device self) 0x01 = 0x0004 ->
        raw = 1 /\ fst (readDieTempC self) = Return 0.03125%float).
Proof.
  exists (Z.shiftr (signed16 (I2C.reg16 (_device self) TMP006_TAMB)) 2).
  rewrite readDieTempC_run, readRawDieTemperature_run. cbn [fst].
  destruct (die_celsius_word16 _ (reg16_range (_device self) TMP006_TAMB))
    as (_ & _ & Hexact).
  split; [reflexivity|]. split; [reflexivity|]. split; [exact Hexact|].
  split.
  - intros ->. reflexivity.
  - change TMP006_TAMB with 0x01. intros ->. split; reflexivity.
Qed.

Lemma readDieTempC_scaling_witness :
  I2C.reg16 (_device (fresh [(0x01, 0x0004)])) 0x01 = 0x0004
  /\ fst (readDieTempC (fresh [(0x01, 0x0004)])) = Return 0.03125%float.
Proof.
  assert (Hreg : I2C.reg16 (_device (fresh [(0x01, 0x0004)])) 0x01 = 0x0004)
    by reflexivity.
  split; [exact Hreg|].
  destruct (readDieTempC_scaling (fresh [(0x01, 0x0004)]))
    as (raw & _ & _ & _ & _ & Hfour).
  exact (proj2 (Hfour Hreg)).
Defined.

(** C9.  The value [v] read from register 0x01 is a signed 16-bit value, in
    [-32768, 32767]; for every such value the count [readRawDieTemperature]
    returns, [v] shifted right by 2, lies in [-8192, 8191], and the value
    [readDieTempC] returns lies in [-256.0, 255.96875]. *)
Theorem die_temperature_range (self : TMP006) :
  exists v raw t,
    fst (I2C.readS16BE 0x01 (_device self)) = v
    /\ -32768 <= v <= 32767
    /\ fst (readRawDieTemperature self) = Return raw
    /\ raw = Z.shiftr v 2
    /\ -8192 <= raw <= 8191
    /\ fst (readDieTempC self) = Return t
    /\ (-256 <=? t)%float = true
    /\ (t <=? 255.96875)%float = true.
Proof.
  pose proof (reg16_range (_device self) TMP006_TAMB) as Hu.
  destruct (die_celsius_word16 _ Hu) as (Hlo & Hhi & _).
  pose proof (signed16_range _ Hu) as Hs.
  destruct (shiftr2_floor (signed16 (I2C.reg16 (_device self) TMP006_TAMB)))
    as [_ Hfloor].
  do 3 eexists.
  rewrite readS16BE_run, readDieTempC_run, readRawDieTemperature_run.
  cbn [fst]. change TMP006_TAMB with 0x01 in *.
  split; [reflexivity|]. split; [exact Hs|]. split; [reflexivity|].
  split; [reflexivity|]. split; [lia|].
  split; [reflexivity|]. split; assumption.
Qed.

(** C10.  Two runs of [readObjTempC] in which the reads of register 0x01 and
    of register 0x00 return the same raw values end alike: both return the
    same binary64 value, or both raise the same exception.  Nothing else of
    the two objects (the other registers, the calls made before, the log)
    has a part in it. *)
Theorem readObjTempC_deterministic
  (pow : float -> float -> float) (self1 self2 : TMP006) :
  fst (I2C.readS16BE 0x01 (_device self1))
  = fst (I2C.readS16BE 0x01 (_device self2)) ->
  fst (I2C.readS16BE 0x00 (_device self1))
  = fst (I2C.readS16BE 0x00 (_device self2)) ->
  fst (readObjTempC pow self1) = fst (readObjTempC pow self2).
Proof.
  rewrite !readS16BE_run. cbn [fst]. intros Htamb Hvobj.
  rewrite !readObjTempC_result. cbv zeta.
  change TMP006_TAMB with 0x01. change TMP006_VOBJ with 0x00.
  rewrite Htamb, Hvobj. reflexivity.
Qed.

Lemma readObjTempC_deterministic_witness :
  fst (readObjTempC pow_rn (fresh [(0x01, 9600); (0x00, 1000)]))
  = fst (readObjTempC pow_rn
           (mkTMP006
              (I2C.mkDevice
                 (list_to_map [(0x01, 9600); (0x00, 1000); (0x02, 0x7900)])
                 [I2C.Write16 0x02 0x0079; I2C.Read16 0xFE; I2C.Read16 0xFF])
              [LogSamplerate 0x0800; LogWake])).
Proof.
  apply readObjTempC_deterministic; reflexivity.
Defined.

(** C1, counterexample.  With register 0x01 at 3200 (die count 800 after the
    shift) and register 0x00 at 0x8000 (voltage count -32768) the radicand of
    the step sequence is negative: [readObjTempC] raises [ValueError] and
    returns nothing, where the step sequence in IEEE arithmetic gives NaN. *)
Lemma readObjTempC_raises_counterexample :
  fst (readRawDieTemperature (fresh [(0x01, 3200); (0x00, 0x8000)]))
  = Return 800
  /\ fst (readRawVoltage (fresh [(0x01, 3200); (0x00, 0x8000)]))
     = Return (-32768)
  /\ fst (readObjTempC pow_rn (fresh [(0x01, 3200); (0x00, 0x8000)]))
     = Raise ValueError
  /\ fst (readObjTempC pow_rn (fresh [(0x01, 3200); (0x00, 0x8000)]))
     <> Return (steps_objTempC pow_rn 800 (-32768)).
Proof.
  vm_compute. repeat split; try reflexivity. discriminate.
Qed.

(** C1, as amended.  For every pair of raw inputs (the die count after the
    2-bit shift and the voltage count), [readObjTempC] raises
    [ZeroDivisionError] when [S] of the step sequence is zero, raises
    [ValueError] when the radicand [Tdie^4 + fVobj/S] is negative, and
    otherwise returns exactly the result of the step sequence evaluated in
    binary64 in the stated order, [S] being [6.4 x (...)] divided twice by
    1e7.  So whatever it returns is the step sequence's result, and within
    1e-9 of it when finite.  For register 0x01 at 9600 (count 2400) and
    voltage count 1000 it returns, with a correctly rounded [pow], the step
    sequence's value 91.728793273978795. *)
Theorem readObjTempC_step_sequence
  (pow : float -> float -> float) (self : TMP006) :
  let rawDieTemp := Z.shiftr (fst (I2C.readS16BE 0x01 (_device self))) 2 in
  let rawVoltage := fst (I2C.readS16BE 0x00 (_device self)) in
  fst (readObjTempC pow self) =
  (if (step_S pow rawDieTemp =? 0)%float then Raise ZeroDivisionError
   else if (step_radicand pow rawDieTemp rawVoltage <? 0)%float
        then Raise ValueError
        else Return (steps_objTempC pow rawDieTemp rawVoltage))
  /\ (forall t,
        fst (readObjTempC pow self) = Return t ->
        t = steps_objTempC pow rawDieTemp rawVoltage
        /\ (is_finite t = true ->
            (abs (t - steps_objTempC pow rawDieTemp rawVoltage) <=? 1e-9)%float
            = true))
  /\ (I2C.reg16 (_device self) 0x01 = 9600 ->
      I2C.reg16 (_device self) 0x00 = 1000 ->
      rawDieTemp = 2400 /\ rawVoltage = 1000
      /\ exists t,
           fst (readObjTempC pow_rn self) = Return t
           /\ t = steps_objTempC pow_rn 2400 1000
           /\ t = 91.728793273978795%float
           /\ (abs (t - steps_objTempC pow_rn 2400 1000) <=? 1e-9)%float = true).
Proof.
  intros rawDieTemp rawVoltage.
  assert (Hd0 : rawDieTemp
                = Z.shiftr (signed16 (I2C.reg16 (_device self) TMP006_TAMB)) 2)
    by (subst rawDieTemp; rewrite readS16BE_run; reflexivity).
  assert (Hv0 : rawVoltage = signed16 (I2C.reg16 (_device self) TMP006_VOBJ))
    by (subst rawVoltage; rewrite readS16BE_run; reflexivity).
  clearbody rawDieTemp rawVoltage.
  assert (Hres : forall p,
             fst (readObjTempC p self) =
             (if (step_S p rawDieTemp =? 0)%float then Raise ZeroDivisionError
              else if (step_radicand p rawDieTemp rawVoltage <? 0)%float
                   then Raise ValueError
                   else Return (steps_objTempC p rawDieTemp rawVoltage)))
    by (intros p; rewrite Hd0, Hv0; apply readObjTempC_result).
  split; [apply Hres|]. split.
  - intros t Ht. rewrite Hres in Ht.
    destruct (step_S pow rawDieTemp =? 0)%float; [discriminate Ht|].
    destruct (step_radicand pow rawDieTemp rawVoltage <? 0)%float;
      [discriminate Ht|].
    injection Ht as <-. split; [reflexivity|].
    intros Hfin. rewrite (float_sub_diag _ Hfin). reflexivity.
  - intros Htamb Hvobj.
    assert (Hd : rawDieTemp = 2400)
      by (rewrite Hd0; change TMP006_TAMB with 0x01; rewrite Htamb; reflexivity).
    assert (Hv : rawVoltage = 1000)
      by (rewrite Hv0; change TMP006_VOBJ with 0x00; rewrite Hvobj; reflexivity).
    split; [exact Hd|]. split; [exact Hv|].
    exists (steps_objTempC pow_rn 2400 1000).
    rewrite Hres, Hd, Hv.
    vm_compute. repeat split; reflexivity.
Qed.

Lemma readObjTempC_step_sequence_witness :
  I2C.reg16 (_device (fresh [(0x01, 9600); (0x00, 1000)])) 0x01 = 9600
  /\ I2C.reg16 (_device (fresh [(0x01, 9600); (0x00, 1000)])) 0x00 = 1000
  /\ fst (readObjTempC pow_rn (fresh [(0x01, 9600); (0x00, 1000)]))
     = Return 91.728793273978795%float.
Proof.
  assert (Htamb : I2C.reg16 (_device (fresh [(0x01, 9600); (0x00, 1000)])) 0x01
                  = 9600) by reflexivity.
  assert (Hvobj : I2C.reg16 (_device (fresh [(0x01, 9600); (0x00, 1000)])) 0x00
                  = 1000) by reflexivity.
  split; [exact Htamb|]. split; [exact Hvobj|].
  destruct (readObjTempC_step_sequence pow_rn
              (fresh [(0x01, 9600); (0x00, 1000)]))
    as (_ & _ & Hgolden).
  destruct (Hgolden Htamb Hvobj) as (_ & _ & t & Hret & _ & Hval & _).
  rewrite Hret, Hval. reflexivity.
Defined.

(** * Further properties *)

Lemma SFcompare_lt_trans (x y z : spec_float) :
  SFcompare x y = Some Lt -> SFcompare y z = Some Lt -> SFcompare x z = Some Lt.
Proof.
  destruct x as [sx|sx| |sx mx ex], y as [sy|sy| |sy my ey],
    z as [sz|sz| |sz mz ez]; simpl;
    try discriminate; try (intros _ _; reflexivity);
    try (destruct sx; discriminate); try (destruct sy; discriminate);
    try (destruct sx, sy; discriminate);
    try (destruct sx, sy, sz;
         (discriminate || reflexivity || (intros; discriminate)
          || (intros; reflexivity))).
  all: destruct sx, sy, sz; try discriminate; try (intros; reflexivity).
  all: change (PosDef.Pos.compare_cont Eq) with Pos.compare.
  all: intros H1 H2; injection H1 as H1; injection H2 as H2; f_equal.
  all: destruct (Z.compare_spec ex ey), (Z.compare_spec ey ez),
         (Z.compare_spec ex ez); subst; try discriminate; try lia;
         try reflexivity.
  all: try (destruct (Pos.compare_spec mx my), (Pos.compare_spec my mz),
              (Pos.compare_spec mx mz); subst; simpl in *;
            try discriminate; try lia; reflexivity).
Qed.

Lemma float_ltb_trans (x y z : float) :
  (x <? y)%float = true -> (y <? z)%float = true -> (x <? z)%float = true.
Proof.
  rewrite !FloatAxioms.ltb_spec. unfold SFltb.
  destruct (SFcompare (Prim2SF x) (Prim2SF y)) as [[| |]|] eqn:Hxy;
    try discriminate.
  destruct (SFcompare (Prim2SF y) (Prim2SF z)) as [[| |]|] eqn:Hyz;
    try discriminate.
  rewrite (SFcompare_lt_trans _ _ _ Hxy Hyz). reflexivity.
Qed.

(** A function on the integers that increases at every step of an interval
    increases over the interval. *)
Lemma steps_increasing (F : Z -> float) (a b : Z) :
  (forall k, a <= k < b -> (F k <? F (k + 1)%Z)%float = true) ->
  forall i j, a <= i -> i < j -> j <= b -> (F i <? F j)%float = true.
Proof.
  intros Hstep i j Hai Hij Hjb.
  replace j with (i + 1 + Z.of_nat (Z.to_nat (j - i - 1))) in *
    by (rewrite Z2Nat.id; lia).
  induction (Z.to_nat (j - i - 1)) as [|n IH].
  - rewrite Z.add_0_r. apply Hstep. lia.
  - rewrite Nat2Z.inj_succ in *.
    apply (float_ltb_trans _ (F (i + 1 + Z.of_nat n))).
    + apply IH; lia.
    + replace (i + 1 + Z.succ (Z.of_nat n)) with (i + 1 + Z.of_nat n + 1) by lia.
      apply Hstep. lia.
Qed.

(** The checks on every die count, from -8192 to 8191. *)
Lemma die_count_check (p : Z -> bool) :
  span 14 0 (fun u => p (u - 8192)) = true ->
  forall k, -8192 <= k <= 8191 -> p k = true.
Proof.
  intros H k Hk.
  replace k with (k + 8192 - 8192) by lia.
  apply (span_spec (fun u => p (u - 8192)) 14 0 H).
  change (2 ^ Z.of_nat 14) with 16384. lia.
Qed.

Lemma die_celsius_step (k : Z) :
  -8192 <= k <= 8191 ->
  (die_celsius k <? die_celsius (k + 1)%Z)%float = true
  /\ (die_celsius (k + 1)%Z - die_celsius k)%float = 0.03125%float
  /\ (c_to_f (die_celsius k) <? c_to_f (die_celsius (k + 1)%Z))%float = true
  /\ (-428.8 <=? c_to_f (die_celsius k))%float = true
  /\ (c_to_f (die_celsius k) <=? 492.74375)%float = true.
Proof.
  intros Hk.
  pose (p := fun k : Z =>
               (die_celsius k <? die_celsius (k + 1)%Z)%float
               && PrimFloat.Leibniz.eqb
                    (die_celsius (k + 1)%Z - die_celsius k)%float 0.03125%float
               && (c_to_f (die_celsius k) <? c_to_f (die_celsius (k + 1)%Z))%float
               && (-428.8 <=? c_to_f (die_celsius k))%float
               && (c_to_f (die_celsius k) <=? 492.74375)%float).
  assert (H : p k = true)
    by (apply die_count_check; [vm_compute; reflexivity | exact Hk]).
  unfold p in H.
  repeat (apply andb_true_iff in H as [H ?]).
  repeat split; try assumption.
  apply FloatAxioms.Leibniz.eqb_spec. assumption.
Qed.


Lemma shift_drops_low_bits (u : Z) :
  0 <= u < 65536 ->
  Z.shiftr (signed16 u) 2 = Z.shiftr (signed16 (Z.land u 0xFFFC)) 2.
Proof.
  intros Hu. apply Z.eqb_eq.
  apply (word16_check_spec
           (fun u => Z.shiftr (signed16 u) 2
                     =? Z.shiftr (signed16 (Z.land u 0xFFFC)) 2));
    [vm_compute; reflexivity | exact Hu].
Qed.

Lemma shift_count_of_high_bits (u u' : Z) :
  0 <= u < 65536 -> 0 <= u' < 65536 ->
  Z.land u 0xFFFC = Z.land u' 0xFFFC ->
  Z.shiftr (signed16 u) 2 = Z.shiftr (signed16 u') 2.
Proof.
  intros Hu Hu' H.
  rewrite (shift_drops_low_bits u Hu), (shift_drops_low_bits u' Hu'), H.
  reflexivity.
Qed.

(** [S] of the step sequence is not zero on any die count, whether the
    square in it is the correctly rounded one or a neighbour of it. *)
Lemma step_S_nonzero (k : Z) :
  -8192 <= k <= 8191 ->
  (step_S (fun x _ => x * x)%float k =? 0)%float = false
  /\ (step_S (fun x _ => next_up (x * x))%float k =? 0)%float = false
  /\ (step_S (fun x _ => next_down (x * x))%float k =? 0)%float = false.
Proof.
  intros Hk.
  pose (p := fun k : Z =>
               negb (step_S (fun x _ => x * x)%float k =? 0)%float
               && negb (step_S (fun x _ => next_up (x * x))%float k =? 0)%float
               && negb (step_S (fun x _ => next_down (x * x))%float k =? 0)%float).
  assert (H : p k = true)
    by (apply die_count_check; [vm_compute; reflexivity | exact Hk]).
  unfold p in H.
  repeat (apply andb_true_iff in H as [H ?]).
  repeat split; apply negb_true_iff; assumption.
Qed.

Lemma die_count_range (d : I2C.Device) :
  -8192 <= Z.shiftr (signed16 (I2C.reg16 d TMP006_TAMB)) 2 <= 8191.
Proof.
  pose proof (signed16_range _ (reg16_range d TMP006_TAMB)) as Hs.
  destruct (shiftr2_floor (signed16 (I2C.reg16 d TMP006_TAMB))) as [_ Hf].
  lia.
Qed.

Lemma readDieTempC_value (self : TMP006) :
  fst (readDieTempC self)
  = Return (die_celsius
              (Z.shiftr (signed16 (I2C.reg16 (_device self) TMP006_TAMB)) 2)).
Proof. rewrite readDieTempC_run. reflexivity. Qed.

Lemma die_celsius_increasing (i j : Z) :
  -8192 <= i -> i < j -> j <= 8191 ->
  (die_celsius i <? die_celsius j)%float = true
  /\ (c_to_f (die_celsius i) <? c_to_f (die_celsius j))%float = true.
Proof.
  intros Hi Hij Hj. split.
  - apply (steps_increasing die_celsius (-8192) 8191); try assumption.
    intros k Hk. apply die_celsius_step. lia.
  - apply (steps_increasing (fun k => c_to_f (die_celsius k)) (-8192) 8191);
      try assumption.
    intros k Hk. apply die_celsius_step. lia.
Qed.

(** X1.  [readRawVoltage] returns the signed 16-bit value held in the
    object-voltage register (0x00) as it is, negative values included, with
    one read of that register and no write. *)
Theorem readRawVoltage_signed (v : Z) (self : TMP006) :
  -32768 <= v <= 32767 ->
  I2C.reg16 (_device self) 0x00 = v mod 65536 ->
  fst (readRawVoltage self) = Return v
  /\ I2C.calls (_device (snd (readRawVoltage self))) =
     I2C.calls (_device self) ++ [I2C.Read16 0x00]
  /\ I2C.registers (_device (snd (readRawVoltage self))) =
     I2C.registers (_device self).
Proof.
  intros Hv Hreg.
  pose proof (readRawVoltage_run self) as Hrun. cbv zeta in Hrun.
  change TMP006_VOBJ with 0x00 in Hrun.
  rewrite Hreg, (signed16_mod v Hv) in Hrun.
  rewrite Hrun. repeat split.
Qed.

Lemma readRawVoltage_signed_witness :
  (-32768 <= -1 <= 32767)
  /\ I2C.reg16 (_device (fresh [(0x00, 0xFFFF)])) 0x00 = (-1) mod 65536
  /\ fst (readRawVoltage (fresh [(0x00, 0xFFFF)])) = Return (-1).
Proof.
  assert (Hv : -32768 <= -1 <= 32767) by lia.
  assert (Hreg : I2C.reg16 (_device (fresh [(0x00, 0xFFFF)])) 0x00
                 = (-1) mod 65536) by reflexivity.
  split; [exact Hv|]. split; [exact Hreg|].
  exact (proj1 (readRawVoltage_signed (-1) (fresh [(0x00, 0xFFFF)]) Hv Hreg)).
Defined.


(** X3.  [begin] (accepted or rejected), [sleep] and [wake] leave every
    register other than the configuration register (0x02) as it was. *)
Theorem configuration_touches_one_register
  (samplerate r : Z) (self : TMP006) :
  r <> 0x02 ->
  I2C.reg16 (_device (snd (begin samplerate self))) r
  = I2C.reg16 (_device self) r
  /\ I2C.reg16 (_device (snd (sleep self))) r = I2C.reg16 (_device self) r
  /\ I2C.reg16 (_device (snd (wake self))) r = I2C.reg16 (_device self) r.
Proof.
  intros Hr. repeat split.
  - destruct (in_dec Z.eq_dec samplerate samplerates) as [Hin|Hnot].
    + rewrite (begin_run _ _ Hin). cbn [snd _device].
      rewrite reg16_begin_device.
      rewrite decide_False by (unfold TMP006_CONFIG; congruence).
      reflexivity.
    + rewrite (begin_rejected _ _ Hnot). reflexivity.
  - rewrite sleep_run. cbn [snd _device].
    rewrite reg16_write16, reg16_record.
    rewrite decide_False by (unfold TMP006_CONFIG; congruence).
    reflexivity.
  - rewrite wake_run. cbn [snd _device].
    rewrite reg16_write16, reg16_record.
    rewrite decide_False by (unfold TMP006_CONFIG; congruence).
    reflexivity.
Qed.

Lemma configuration_touches_one_register_witness :
  0xFE <> 0x02
  /\ I2C.reg16
       (_device (snd (begin CFG_4SAMPLE (fresh [(0xFE, 0x5449); (0x02, 0x7400)]))))
       0xFE
     = 0x5449.
Proof.
  assert (Hr : 0xFE <> 0x02) by lia.
  split; [exact Hr|].
  exact (proj1 (configuration_touches_one_register CFG_4SAMPLE 0xFE
                  (fresh [(0xFE, 0x5449); (0x02, 0x7400)]) Hr)).
Defined.




(** X6.  The two low bits of the ambient-temperature register have no
    part in the results: two sensors whose registers 0x01 agree on the upper
    14 bits give the same die count and the same die temperature, and with
    equal registers 0x00 the same outcome of [readObjTempC]. *)
Theorem reserved_bits_ignored
  (pow : float -> float -> float) (self1 self2 : TMP006) :
  Z.land (I2C.reg16 (_device self1) 0x01) 0xFFFC
  = Z.land (I2C.reg16 (_device self2) 0x01) 0xFFFC ->
  fst (readRawDieTemperature self1) = fst (readRawDieTemperature self2)
  /\ fst (readDieTempC self1) = fst (readDieTempC self2)
  /\ (I2C.reg16 (_device self1) 0x00 = I2C.reg16 (_device self2) 0x00 ->
      fst (readObjTempC pow self1) = fst (readObjTempC pow self2)).
Proof.
  intros Hhigh.
  assert (Hcount :
    Z.shiftr (signed16 (I2C.reg16 (_device self1) TMP006_TAMB)) 2
    = Z.shiftr (signed16 (I2C.reg16 (_device self2) TMP006_TAMB)) 2)
    by (apply shift_count_of_high_bits;
        [apply reg16_range | apply reg16_range | exact Hhigh]).
  rewrite !readDieTempC_run, !readRawDieTemperature_run,
    !readObjTempC_result.
  cbv zeta. cbn [fst]. rewrite Hcount.
  split; [reflexivity|]. split; [reflexivity|].
  change TMP006_VOBJ with 0x00. intros ->. reflexivity.
Qed.

Lemma reserved_bits_ignored_witness :
  Z.land (I2C.reg16 (_device (fresh [(0x01, 9600); (0x00, 1000)])) 0x01) 0xFFFC
  = Z.land (I2C.reg16 (_device (fresh [(0x01, 9603); (0x00, 1000)])) 0x01) 0xFFFC
  /\ fst (readDieTempC (fresh [(0x01, 9600); (0x00, 1000)]))
     = fst (readDieTempC (fresh [(0x01, 9603); (0x00, 1000)])).
Proof.
  assert (H : Z.land (I2C.reg16 (_device (fresh [(0x01, 9600); (0x00, 1000)])) 0x01) 0xFFFC
              = Z.land (I2C.reg16 (_device (fresh [(0x01, 9603); (0x00, 1000)])) 0x01) 0xFFFC)
    by reflexivity.
  split; [exact H|].
  exact (proj1 (proj2 (reserved_bits_ignored pow_rn _ _ H))).
Defined.

(** X7.  The die temperature keeps the order of the die counts: a larger
    count gives a larger value of [readDieTempC], and one more count gives
    exactly 0.03125 more. *)
Theorem readDieTempC_increasing (self1 self2 : TMP006) (raw1 raw2 : Z) :
  fst (readRawDieTemperature self1) = Return raw1 ->
  fst (readRawDieTemperature self2) = Return raw2 ->
  raw1 < raw2 ->
  exists t1 t2,
    fst (readDieTempC self1) = Return t1
    /\ fst (readDieTempC self2) = Return t2
    /\ (t1 <? t2)%float = true
    /\ (raw2 = raw1 + 1 -> (t2 - t1)%float = 0.03125%float).
Proof.
  rewrite !readRawDieTemperature_run. cbv zeta. cbn [fst].
  intros H1 H2 Hlt. injection H1 as H1. injection H2 as H2.
  pose proof (die_count_range (_device self1)) as R1.
  pose proof (die_count_range (_device self2)) as R2.
  rewrite H1 in R1. rewrite H2 in R2.
  exists (die_celsius raw1), (die_celsius raw2).
  rewrite !readDieTempC_value, H1, H2.
  split; [reflexivity|]. split; [reflexivity|]. split.
  - apply die_celsius_increasing; lia.
  - intros ->. apply die_celsius_step. lia.
Qed.

Lemma readDieTempC_increasing_witness :
  exists t1 t2,
    fst (readDieTempC (fresh [(0x01, 0xFFFC)])) = Return t1
    /\ fst (readDieTempC (fresh [(0x01, 0x0000)])) = Return t2
    /\ (t1 <? t2)%float = true.
Proof.
  assert (H1 : fst (readRawDieTemperature (fresh [(0x01, 0xFFFC)])) = Return (-1))
    by reflexivity.
  assert (H2 : fst (readRawDieTemperature (fresh [(0x01, 0x0000)])) = Return 0)
    by reflexivity.
  assert (Hlt : -1 < 0) by lia.
  destruct (readDieTempC_increasing _ _ _ _ H1 H2 Hlt)
    as (t1 & t2 & Ht1 & Ht2 & Hlt' & _).
  exists t1, t2. auto.
Defined.

(** X8.  The Fahrenheit value [c_to_f] gives for a die temperature of
    [readDieTempC] lies in [-428.8, 492.74375], and a larger die count gives
    a larger Fahrenheit value. *)
Theorem c_to_f_of_die_temperature (self1 self2 : TMP006) (raw1 raw2 : Z) :
  fst (readRawDieTemperature self1) = Return raw1 ->
  fst (readRawDieTemperature self2) = Return raw2 ->
  exists t1 t2,
    fst (readDieTempC self1) = Return t1
    /\ fst (readDieTempC self2) = Return t2
    /\ (-428.8 <=? c_to_f t1)%float = true
    /\ (c_to_f t1 <=? 492.74375)%float = true
    /\ (raw1 < raw2 -> (c_to_f t1 <? c_to_f t2)%float = true).
Proof.
  rewrite !readRawDieTemperature_run. cbv zeta. cbn [fst].
  intros H1 H2. injection H1 as H1. injection H2 as H2.
  pose proof (die_count_range (_device self1)) as R1.
  pose proof (die_count_range (_device self2)) as R2.
  rewrite H1 in R1. rewrite H2 in R2.
  exists (die_celsius raw1), (die_celsius raw2).
  rewrite !readDieTempC_value, H1, H2.
  split; [reflexivity|]. split; [reflexivity|].
  destruct (die_celsius_step raw1 R1) as (_ & _ & _ & Hlo & Hhi).
  split; [exact Hlo|]. split; [exact Hhi|].
  intros Hlt. apply die_celsius_increasing; lia.
Qed.

Lemma c_to_f_of_die_temperature_witness :
  exists t1 t2,
    fst (readDieTempC (fresh [(0x01, 0x8000)])) = Return t1
    /\ fst (readDieTempC (fresh [(0x01, 0x7FFC)])) = Return t2
    /\ (c_to_f t1 <? c_to_f t2)%float = true.
Proof.
  assert (H1 : fst (readRawDieTemperature (fresh [(0x01, 0x8000)]))
               = Return (-8192)) by reflexivity.
  assert (H2 : fst (readRawDieTemperature (fresh [(0x01, 0x7FFC)]))
               = Return 8191) by reflexivity.
  destruct (c_to_f_of_die_temperature _ _ _ _ H1 H2)
    as (t1 & t2 & Ht1 & Ht2 & _ & _ & Hlt).
  exists t1, t2. split; [exact Ht1|]. split; [exact Ht2|].
  apply Hlt. lia.
Defined.

(** X9.  When the square [math.pow] returns for the exponent 2.0 is the
    correctly rounded square or one of its two neighbours in binary64 (an
    error below one unit in the last place), [readObjTempC] never raises
    [ZeroDivisionError]: [S] is nonzero on every die count. *)
Theorem readObjTempC_no_zero_division
  (pow : float -> float -> float) (self : TMP006) :
  (forall x,
     pow x 2%float = (x * x)%float
     \/ pow x 2%float = next_up (x * x)%float
     \/ pow x 2%float = next_down (x * x)%float) ->
  fst (readObjTempC pow self) <> Raise ZeroDivisionError.
Proof.
  intros Hsq. rewrite readObjTempC_result. cbv zeta.
  set (d := Z.shiftr (signed16 (I2C.reg16 (_device self) TMP006_TAMB)) 2).
  destruct (step_S_nonzero d (die_count_range (_device self)))
    as (Hmid & Hup & Hdown).
  assert (HS : (step_S pow d =? 0)%float = false).
  { destruct (Hsq (step_Tdie_ref d)) as [H|[H|H]].
    - replace (step_S pow d) with (step_S (fun x _ => x * x)%float d)
        by (unfold step_S; rewrite H; reflexivity).
      exact Hmid.
    - replace (step_S pow d)
        with (step_S (fun x _ => next_up (x * x))%float d)
        by (unfold step_S; rewrite H; reflexivity).
      exact Hup.
    - replace (step_S pow d)
        with (step_S (fun x _ => next_down (x * x))%float d)
        by (unfold step_S; rewrite H; reflexivity).
      exact Hdown. }
  rewrite HS.
  destruct (step_radicand pow d _ <? 0)%float; discriminate.
Qed.

Lemma readObjTempC_no_zero_division_witness :
  (forall x : float,
     next_up (x * x)%float = (x * x)%float
     \/ next_up (x * x)%float = next_up (x * x)%float
     \/ next_up (x * x)%float = next_down (x * x)%float)
  /\ fst (readObjTempC (fun x _ => next_up (x * x)%float)
            (fresh [(0x01, 3200); (0x00, 0x8000)]))
     <> Raise ZeroDivisionError.
Proof.
  assert (H : forall x : float,
             next_up (x * x)%float = (x * x)%float
             \/ next_up (x * x)%float = next_up (x * x)%float
             \/ next_up (x * x)%float = next_down (x * x)%float)
    by (intros x; right; left; reflexivity).
  split; [exact H|].
  exact (readObjTempC_no_zero_division
           (fun x _ => next_up (x * x)%float) _ H).
Defined.


